(** * Organization admin: core-values text field, display helpers, migrations

    A shallow embedding of [plan/organizations/admin.py] and of the two
    schema migrations [0013_plan_selected_objectives] and
    [0016_plan_selected_objectives_weights].

    Python strings are sequences of Unicode code points; they are modelled
    as lists of code points ([N]).  Dictionaries keyed by field names are
    [gmap string _].  Code that can raise runs in a small error monad. *)

From Stdlib Require Import NArith Ascii String List.
From stdpp Require Import gmap strings list fin_maps.

Local Open Scope N_scope.
Local Open Scope list_scope.

(** ** Python strings *)

Module PyStr.

Definition char := N.
Definition str := list char.

(** A literal of the source, read as its code points. *)
Definition of_string (s : string) : str :=
  List.map N_of_ascii (list_ascii_of_string s).

Definition newline : char := 10.

(** [Py_UNICODE_ISSPACE]: the characters [str.strip()] removes when it is
    called without an argument. *)
Definition is_whitespace (c : char) : bool :=
  ((9 <=? c) && (c <=? 13))
  || ((28 <=? c) && (c <=? 32))
  || (c =? 133) || (c =? 160) || (c =? 5760)
  || ((8192 <=? c) && (c <=? 8202))
  || (c =? 8232) || (c =? 8233) || (c =? 8239) || (c =? 8287)
  || (c =? 12288).

(** Truth value of a string: non-empty. *)
Definition truthy (s : str) : bool :=
  match s with [] => false | _ :: _ => true end.

(** [s.lstrip()] *)
Fixpoint lstrip (s : str) : str :=
  match s with
  | [] => []
  | c :: s' => if is_whitespace c then lstrip s' else s
  end.

(** [s.rstrip()]: the right end is scanned back over whitespace. *)
Fixpoint rstrip (s : str) : str :=
  match s with
  | [] => []
  | c :: s' =>
      match rstrip s' with
      | [] => if is_whitespace c then [] else [c]
      | r => c :: r
      end
  end.

(** [s.strip()] *)
Definition strip (s : str) : str := rstrip (lstrip s).

(** [s.split(sep)] for a separator of one character: a string with [n]
    occurrences of [sep] gives [n + 1] pieces, empty ones included. *)
Fixpoint split (sep : char) (s : str) : list str :=
  match s with
  | [] => [[]]
  | c :: s' =>
      if c =? sep then [] :: split sep s'
      else match split sep s' with
           | [] => [[c]]
           | piece :: pieces => (c :: piece) :: pieces
           end
  end.

(** [sep.join(l)] *)
Fixpoint join (sep : str) (l : list str) : str :=
  match l with
  | [] => []
  | [x] => x
  | x :: l' => x ++ sep ++ join sep l'
  end.

End PyStr.

Import PyStr.


(** ** Values, exceptions *)

Inductive exn := AttributeError | KeyError | TypeError.

Inductive result (A : Type) : Type :=
| Ok (a : A)
| Raise (e : exn).
Arguments Ok {A} a.
Arguments Raise {A} e.

#[global] Instance result_ret : MRet result := fun A a => Ok a.
#[global] Instance result_bind : MBind result := fun A B f m =>
  match m with
  | Ok a => f a
  | Raise e => Raise e
  end.

(** The values a form's [cleaned_data] holds. *)
Module Value.

Inductive t :=
| VNone
| VBool (b : bool)
| VInt (n : Z)
| VStr (s : str)
| VList (l : list str).

Definition truthy (v : t) : bool :=
  match v with
  | VNone => false
  | VBool b => b
  | VInt n => negb (n =? 0)%Z
  | VStr s => PyStr.truthy s
  | VList l => match l with [] => false | _ :: _ => true end
  end.

(** [v.split(sep)]: only a string has the method. *)
Definition split (v : t) (sep : char) : result (list str) :=
  match v with
  | VStr s => Ok (PyStr.split sep s)
  | _ => Raise AttributeError
  end.

End Value.

Import Value.

(** ** Entities (the attributes the admin code reads) *)

Module Organization.
Record t := { pk : option Z; name : str; core_values : list str }.
End Organization.

Module TeamDesk.
Record t := { name : str }.
End TeamDesk.

(** The higher-level plan a desk plan may point to through [leo_eo_plan]. *)
Module Plan.
Record t := { organization : option Organization.t }.
End Plan.

Module TeamDeskPlan.
Record t := {
  organization : option Organization.t;
  team_desk : option TeamDesk.t;
  leo_eo_plan : option Plan.t;
  status : str
}.
End TeamDeskPlan.

(** [get_full_name] holds what the call [user.get_full_name()] returns. *)
Module User.
Record t := { username : str; get_full_name : str }.
End User.

Module OrganizationUser.
Record t := { user : option User.t }.
End OrganizationUser.

Module TeamDeskPlanReview.
Record t := {
  plan : option TeamDeskPlan.t;
  reviewer : option OrganizationUser.t;
  status : str;
  feedback : str
}.
End TeamDeskPlanReview.

(** Truth value of a possibly absent related object: [None] is false, a
    model instance is true. *)
Definition related {A : Type} (o : option A) : bool :=
  match o with Some _ => true | None => false end.

(** [o.a] on a possibly absent object: attribute access on [None] raises. *)
Definition attr {A B : Type} (o : option A) (a : A -> B) : result B :=
  match o with
  | Some x => Ok (a x)
  | None => Raise AttributeError
  end.

(** Truth value of a primary key. *)
Definition pk_truthy (pk : option Z) : bool :=
  match pk with
  | None => false
  | Some n => negb (n =? 0)%Z
  end.

(** ** OrganizationAdminForm *)

Module CharField.
Record t := {
  required : bool;
  label : str;
  help_text : str;
  initial : option str
}.

Definition set_initial (v : str) (f : t) : t :=
  {| required := required f; label := label f;
     help_text := help_text f; initial := Some v |}.
End CharField.

Module OrganizationAdminForm.

(** The field the class declares. *)
Definition core_values_text : CharField.t :=
  {| CharField.required := false;
     CharField.label := of_string "Core Values (one per line)";
     CharField.help_text := of_string "Enter each core value on a new line";
     CharField.initial := None |}.

Record t := {
  instance : Organization.t;
  fields : gmap string CharField.t
}.

(** [super().__init__]: the form starts with its declared field (the
    fields generated from the model are not read by this class). *)
Definition super_init (instance : Organization.t) : t :=
  {| instance := instance;
     fields := {[ "core_values_text"%string := core_values_text ]} |}.

(** ['\n'.join(core_values)] *)
Definition list_to_text (core_values : list str) : str :=
  join [newline] core_values.

Definition __init__ (instance : Organization.t) : t :=
  let self := super_init instance in
  if pk_truthy (Organization.pk (OrganizationAdminForm.instance self))
     && Value.truthy (VList (Organization.core_values (OrganizationAdminForm.instance self)))
  then
    {| instance := OrganizationAdminForm.instance self;
       fields :=
         alter (CharField.set_initial
                  (list_to_text
                     (Organization.core_values (OrganizationAdminForm.instance self))))
               "core_values_text"%string (fields self) |}
  else self.

(** [[value.strip() for value in lines if value.strip()]] *)
Fixpoint stripped_lines (lines : list str) : list str :=
  match lines with
  | [] => []
  | value :: rest =>
      if PyStr.truthy (strip value)
      then strip value :: stripped_lines rest
      else stripped_lines rest
  end.

(** [clean], with [cleaned_data] the dictionary [super().clean()] returns. *)
Definition clean (cleaned_data : gmap string Value.t)
  : result (gmap string Value.t) :=
  let core_values_text :=
    default (VStr []) (cleaned_data !! "core_values_text"%string) in
  if Value.truthy core_values_text then
    lines ← Value.split core_values_text newline;
    mret (<["core_values"%string := VList (stripped_lines lines)]> cleaned_data)
  else
    mret (<["core_values"%string := VList []]> cleaned_data).

(** Lines 34-37 of [clean] read on a string: the list stored for the
    text [core_values_text]. *)
Definition text_to_list (core_values_text : str) : list str :=
  if PyStr.truthy core_values_text
  then stripped_lines (PyStr.split newline core_values_text)
  else [].

End OrganizationAdminForm.

(** ** Display helpers of the plan and review admin classes *)

Definition NA : str := of_string "N/A".

Module TeamDeskPlanAdmin.

Definition get_team_desk_name (obj : TeamDeskPlan.t) : result str :=
  if related (TeamDeskPlan.team_desk obj)
  then attr (TeamDeskPlan.team_desk obj) TeamDesk.name
  else mret NA.

Definition get_organization_name (obj : TeamDeskPlan.t) : result str :=
  if related (TeamDeskPlan.organization obj)
  then attr (TeamDeskPlan.organization obj) Organization.name
  else mret NA.

Definition get_leo_eo_plan_name (obj : TeamDeskPlan.t) : result str :=
  cond ← (if related (TeamDeskPlan.leo_eo_plan obj)
          then organization ← attr (TeamDeskPlan.leo_eo_plan obj) Plan.organization;
               mret (related organization)
          else mret false);
  if cond : bool then
    organization ← attr (TeamDeskPlan.leo_eo_plan obj) Plan.organization;
    name ← attr organization Organization.name;
    mret (name ++ of_string " Plan")
  else mret NA.

End TeamDeskPlanAdmin.

Module TeamDeskPlanReviewAdmin.

Definition get_plan_info (obj : TeamDeskPlanReview.t) : result str :=
  cond ← (if related (TeamDeskPlanReview.plan obj)
          then team_desk ← attr (TeamDeskPlanReview.plan obj) TeamDeskPlan.team_desk;
               mret (related team_desk)
          else mret false);
  if cond : bool then
    team_desk ← attr (TeamDeskPlanReview.plan obj) TeamDeskPlan.team_desk;
    team_desk_name ← attr team_desk TeamDesk.name;
    organization ← attr (TeamDeskPlanReview.plan obj) TeamDeskPlan.organization;
    organization_name ← attr organization Organization.name;
    mret (team_desk_name ++ of_string " (" ++ organization_name ++ of_string ")")
  else mret NA.

Definition get_reviewer_name (obj : TeamDeskPlanReview.t) : result str :=
  cond ← (if related (TeamDeskPlanReview.reviewer obj)
          then user ← attr (TeamDeskPlanReview.reviewer obj) OrganizationUser.user;
               mret (related user)
          else mret false);
  if cond : bool then
    user ← attr (TeamDeskPlanReview.reviewer obj) OrganizationUser.user;
    full_name ← attr user User.get_full_name;
    if PyStr.truthy full_name then mret full_name
    else attr user User.username
  else mret NA.

End TeamDeskPlanReviewAdmin.

(** ** Schema migrations *)

Module Migrations.

Inductive FieldType := ManyToManyField | JSONField.

(** A field definition: its class and keyword arguments ([null] is false
    and the relation arguments are absent unless given). *)
Record Field := {
  field_type : FieldType;
  blank : bool;
  null : bool;
  help_text : string;
  related_name : option string;
  to : option string
}.

Inductive Operation :=
| AddField (model_name name : string) (field : Field)
| RemoveField (model_name name : string)
| AlterField (model_name name : string) (field : Field)
| RenameField (model_name old_name new_name : string).

Record Migration := {
  dependencies : list (string * string);
  operations : list Operation
}.

(** The class statement of migration 0013 (lines 6-18 of its file). *)
Definition class_0013 : Migration :=
  {| dependencies := [("organizations", "0012_alter_plan_type")]%string;
     operations :=
       [AddField "plan" "selected_objectives"
          {| field_type := ManyToManyField;
             blank := true;
             null := false;
             help_text := "All objectives selected for this plan";
             related_name := Some "selected_in_plans"%string;
             to := Some "organizations.strategicobjective"%string |}] |}.

(** The class statement of migration 0016 (lines 4-16 of its file). *)
Definition class_0016 : Migration :=
  {| dependencies :=
       [("organizations", "0015_detailactivity_teamdeskplan_and_more")]%string;
     operations :=
       [AddField "plan" "selected_objectives_weights"
          {| field_type := JSONField;
             blank := true;
             null := true;
             help_text := "Custom weights assigned by planner for each selected objective {objective_id: weight}";
             related_name := None;
             to := None |}] |}.

(** A top-level item of a module file; [NotPython] is text that is no
    Python statement. *)
Inductive statement :=
| Comment (text : string)
| FromImport (package : string) (names : list string)
| ClassDef (name : string) (base : string) (body : Migration)
| NotPython (text : string).

(** [0013_plan_selected_objectives.py], its 19 lines. *)
Definition file_0013 : list statement :=
  [Comment "Generated by Django 4.2.10 on 2025-07-20 21:45";
   FromImport "django.db" ["migrations"; "models"];
   ClassDef "Migration" "migrations.Migration" class_0013]%string.

(** [0016_plan_selected_objectives_weights.py], its 17 lines: the class
    statement is followed by the line [</anoltAction>]. *)
Definition file_0016 : list statement :=
  [FromImport "django.db" ["migrations"; "models"];
   ClassDef "Migration" "migrations.Migration" class_0016;
   NotPython "</anoltAction>"]%string.

Inductive load_error := SyntaxError | BadMigrationError.

Definition is_python (s : statement) : bool :=
  match s with NotPython _ => false | _ => true end.

(** The class a module binds to [name] once it has run: the last class
    statement of that name. *)
Fixpoint bound_class (name : string) (file : list statement) : option Migration :=
  match file with
  | [] => None
  | s :: rest =>
      match bound_class name rest with
      | Some m => Some m
      | None =>
          match s with
          | ClassDef n _ body => if decide (n = name) then Some body else None
          | _ => None
          end
      end
  end.

(** Loading a migration module.  Python compiles the file as a whole
    before it runs any of it, so text that is not Python anywhere in the
    file is a [SyntaxError] and nothing is defined; the migration of a
    module that runs is its class [Migration]. *)
Definition load (file : list statement) : Migration + load_error :=
  if forallb is_python file then
    match bound_class "Migration" file with
    | Some m => inl m
    | None => inr BadMigrationError
    end
  else inr SyntaxError.

Definition is_add_field (op : Operation) : bool :=
  match op with AddField _ _ _ => true | _ => false end.

(** An operation that drops or changes a column that already exists. *)
Definition touches_existing_column (op : Operation) : bool :=
  match op with
  | AddField _ _ _ => false
  | RemoveField _ _ | AlterField _ _ _ | RenameField _ _ _ => true
  end.

End Migrations.

(** ** Notions the stated properties use *)

(** Python's "empty or made of whitespace only". *)
Definition whitespace_only (s : str) : bool := forallb is_whitespace s.

(** A string as [strip] leaves it: nothing to remove at either end. *)
Definition trimmed (s : str) : Prop := strip s = s.

(** The entries of a list that are not empty once trimmed, trimmed, in
    the order of the list. *)
Definition nonempty_trimmed_entries (l : list str) : list str :=
  List.filter PyStr.truthy (List.map strip l).

(** The save-time contract as the specification words it: split the text
    on newline, trim each line, discard the lines that are empty, keep
    the others in order. *)
Definition spec_text_to_list (text : str) : list str :=
  nonempty_trimmed_entries (PyStr.split newline text).

(** What the edit form shows in [core_values_text] when it is loaded:
    the field's [initial], if one was set. *)
Definition presented_text (form : OrganizationAdminForm.t) : option str :=
  field ← OrganizationAdminForm.fields form !! "core_values_text"%string;
  CharField.initial field.


(** ** LocationAdmin *)

Module LocationAdmin.

(** A keyword argument handed to the form-field factory: a list of
    (value, label) choices, or any other value. *)
Inductive kwarg :=
| Choices (choices : list (str * str))
| Other (v : Value.t).

Section Regions.

(** [Location.REGIONS], declared with the models. *)
Variable REGIONS : list (str * str).

(** [formfield_for_choice_field]: the keyword arguments passed on to
    [super().formfield_for_choice_field] for the field named
    [db_field_name]. *)
Definition formfield_for_choice_field
    (db_field_name : str) (kwargs : gmap string kwarg) : gmap string kwarg :=
  if decide (db_field_name = of_string "region")
  then <["choices"%string := Choices REGIONS]> kwargs
  else kwargs.

End Regions.

End LocationAdmin.

(** ** More notions the stated properties use *)

(** The text with every newline written as carriage return, newline (the
    line ending a browser submits for a text area). *)
Fixpoint to_crlf (text : str) : str :=
  match text with
  | [] => []
  | c :: rest =>
      if c =? newline then 13 :: newline :: to_crlf rest
      else c :: to_crlf rest
  end.

(** The number of newline characters of a text. *)
Definition count_newlines (text : str) : nat :=
  length (List.filter (fun c => c =? newline) text).

(** A core value as [clean] stores it: not empty, on one line, with no
    whitespace at its first or last position. *)
Definition normalised (value : str) : Prop :=
  value <> []
  /\ (newline ∉ value)
  /\ trimmed value
  /\ (forall c, head value = Some c -> is_whitespace c = false)
  /\ (forall c, last value = Some c -> is_whitespace c = false).

(** Two lines that differ by a carriage return at the end at most. *)
Definition same_up_to_cr (x y : str) : Prop := x = y \/ x = y ++ [13].

(** * Properties *)

Example split_example :
  PyStr.split newline (of_string "a" ++ [newline] ++ [newline] ++ of_string "b")
  = [of_string "a"; []; of_string "b"].
Proof. reflexivity. Qed.

Example strip_example :
  strip (of_string "  a b " ++ [newline; 13]) = of_string "a b".
Proof. reflexivity. Qed.

(** ** Facts about [strip], [split] and [join] *)

Section Strip.

Lemma lstrip_whitespace_only s : whitespace_only s = true -> lstrip s = [].
Proof.
  induction s as [|c s IH]; simpl; [done|].
  intros [Hc Hs]%andb_prop. rewrite Hc. auto.
Qed.

Lemma strip_whitespace_only s : whitespace_only s = true -> strip s = [].
Proof. intros H. unfold strip. by rewrite lstrip_whitespace_only. Qed.

Lemma lstrip_idem s : lstrip (lstrip s) = lstrip s.
Proof.
  induction s as [|c s IH]; simpl; [done|].
  destruct (is_whitespace c) eqn:Hc; [done|]. simpl. by rewrite Hc.
Qed.

Lemma rstrip_cons_keep c s :
  is_whitespace c = false -> rstrip (c :: s) = c :: rstrip s.
Proof. intros Hc. simpl. rewrite Hc. by destruct (rstrip s). Qed.

Lemma rstrip_idem s : rstrip (rstrip s) = rstrip s.
Proof.
  induction s as [|c s IH]; simpl; [done|].
  destruct (rstrip s) as [|d r] eqn:Hr.
  - destruct (is_whitespace c) eqn:Hc; simpl; [done|]. by rewrite Hc.
  - change (rstrip (c :: d :: r) = c :: d :: r).
    simpl. simpl in IH. by rewrite IH.
Qed.

(** What [lstrip] returns is empty or starts with a character that is
    not whitespace. *)
Lemma lstrip_head s :
  match lstrip s with
  | [] => True
  | c :: _ => is_whitespace c = false
  end.
Proof.
  induction s as [|c s IH]; simpl; [done|].
  by destruct (is_whitespace c) eqn:Hc.
Qed.

Lemma lstrip_strip s : lstrip (strip s) = strip s.
Proof.
  unfold strip. pose proof (lstrip_head s) as H.
  destruct (lstrip s) as [|c t]; [done|].
  rewrite rstrip_cons_keep by done. simpl. by rewrite H.
Qed.

Lemma strip_idem s : strip (strip s) = strip s.
Proof.
  unfold strip at 1. rewrite lstrip_strip.
  unfold strip. apply rstrip_idem.
Qed.

Lemma lstrip_elem c s : c ∈ lstrip s -> c ∈ s.
Proof.
  induction s as [|d s IH]; simpl; [done|].
  destruct (is_whitespace d); [|done].
  intros H. right. auto.
Qed.

Lemma rstrip_elem c s : c ∈ rstrip s -> c ∈ s.
Proof.
  induction s as [|d s IH]; simpl; [done|].
  destruct (rstrip s) as [|e r].
  - destruct (is_whitespace d); [by intros ?%elem_of_nil|].
    intros ->%list_elem_of_singleton. left.
  - intros [->|H]%elem_of_cons; [left|right; auto].
Qed.

Lemma strip_elem c s : c ∈ strip s -> c ∈ s.
Proof. intros H. by apply lstrip_elem, rstrip_elem. Qed.

(** What [rstrip] returns is empty or ends with a character that is not
    whitespace. *)
Lemma rstrip_last s :
  match last (rstrip s) with
  | None => rstrip s = []
  | Some c => is_whitespace c = false
  end.
Proof.
  induction s as [|c s IH]; simpl; [done|].
  destruct (rstrip s) as [|d r] eqn:Hr.
  - by destruct (is_whitespace c) eqn:Hc.
  - change (last (c :: d :: r)) with (last (d :: r)).
    by destruct (last (d :: r)).
Qed.

(** [strip] removes whitespace only. *)
Lemma lstrip_decompose s :
  exists l, s = l ++ lstrip s /\ whitespace_only l = true.
Proof.
  induction s as [|c s (l & Hl & Hw)]; simpl.
  - by exists [].
  - destruct (is_whitespace c) eqn:Hc.
    + exists (c :: l). simpl. rewrite Hc, Hw. split; [by f_equal|done].
    + by exists [].
Qed.

Lemma rstrip_decompose s :
  exists r, s = rstrip s ++ r /\ whitespace_only r = true.
Proof.
  induction s as [|c s (r & Hr & Hw)]; simpl.
  - by exists [].
  - destruct (rstrip s) as [|d t] eqn:Ht.
    + destruct (is_whitespace c) eqn:Hc.
      * exists (c :: r). simpl. rewrite Hc, Hw. simpl in Hr. by subst.
      * exists r. simpl in *. by subst.
    + exists r. split; [|done]. simpl. f_equal. exact Hr.
Qed.

Lemma strip_decompose s :
  exists l r, s = l ++ strip s ++ r
              /\ whitespace_only l = true /\ whitespace_only r = true.
Proof.
  destruct (lstrip_decompose s) as (l & Hl & Hwl).
  destruct (rstrip_decompose (lstrip s)) as (r & Hr & Hwr).
  exists l, r. unfold strip. by rewrite <- Hr.
Qed.

End Strip.

Section SplitJoin.

Variable sep : char.

Lemma split_not_nil s : PyStr.split sep s <> [].
Proof.
  destruct s as [|c s]; simpl; [done|].
  destruct (c =? sep); [done|]. by destruct (PyStr.split sep s).
Qed.

Lemma join_cons x y l : join [sep] (x :: y :: l) = x ++ sep :: join [sep] (y :: l).
Proof. reflexivity. Qed.

Lemma join_split s : join [sep] (PyStr.split sep s) = s.
Proof.
  induction s as [|c s IH]; simpl; [done|].
  pose proof (split_not_nil s) as Hne.
  destruct (N.eqb_spec c sep) as [->|Hc].
  - destruct (PyStr.split sep s) as [|p ps]; [done|].
    change (sep :: join [sep] (p :: ps) = sep :: s). by rewrite IH.
  - destruct (PyStr.split sep s) as [|p ps]; [done|].
    destruct ps as [|q ps]; simpl in *; by rewrite <- IH.
Qed.

Lemma split_no_sep s : Forall (fun piece => sep ∉ piece) (PyStr.split sep s).
Proof.
  induction s as [|c s IH]; simpl.
  - repeat constructor. apply not_elem_of_nil.
  - destruct (N.eqb_spec c sep) as [->|Hc].
    + constructor; [apply not_elem_of_nil|done].
    + destruct (PyStr.split sep s) as [|p ps].
      * repeat constructor. by intros ->%list_elem_of_singleton.
      * inversion IH as [|? ? Hp Hps]; subst. constructor; [|done].
        intros [->|H]%elem_of_cons; done.
Qed.

Lemma split_piece p : sep ∉ p -> PyStr.split sep p = [p].
Proof.
  induction p as [|c p IH]; simpl; [done|].
  intros H. apply not_elem_of_cons in H as [Hc Hp].
  destruct (N.eqb_spec c sep) as [->|_]; [done|].
  by rewrite IH.
Qed.

Lemma split_piece_sep p rest :
  sep ∉ p -> PyStr.split sep (p ++ sep :: rest) = p :: PyStr.split sep rest.
Proof.
  induction p as [|c p IH]; simpl.
  - intros _. by rewrite N.eqb_refl.
  - intros H. apply not_elem_of_cons in H as [Hc Hp].
    destruct (N.eqb_spec c sep) as [->|_]; [done|].
    by rewrite IH.
Qed.

Lemma split_join l :
  l <> [] -> Forall (fun piece => sep ∉ piece) l ->
  PyStr.split sep (join [sep] l) = l.
Proof.
  induction l as [|x l IH]; [done|].
  intros _ H. inversion H as [|? ? Hx Hl]; subst.
  destruct l as [|y l].
  - simpl. by apply split_piece.
  - rewrite join_cons, split_piece_sep by done.
    f_equal. by apply IH.
Qed.

Lemma split_whitespace_only s :
  whitespace_only s = true ->
  Forall (fun piece => whitespace_only piece = true) (PyStr.split sep s).
Proof.
  induction s as [|c s IH]; simpl.
  - by repeat constructor.
  - intros [Hc Hs]%andb_prop. specialize (IH Hs).
    destruct (c =? sep).
    + by constructor.
    + destruct (PyStr.split sep s) as [|p ps].
      * repeat constructor. simpl. by rewrite Hc.
      * inversion IH; subst. constructor; [|done]. simpl. by rewrite Hc.
Qed.

End SplitJoin.

(** ** The list comprehension of [clean] *)

Import OrganizationAdminForm.

Section StrippedLines.

Lemma stripped_lines_entries lines :
  stripped_lines lines = nonempty_trimmed_entries lines.
Proof.
  unfold nonempty_trimmed_entries.
  induction lines as [|value rest IH]; simpl; [done|].
  destruct (PyStr.truthy (strip value)); by rewrite IH.
Qed.

Lemma stripped_lines_whitespace_only lines :
  Forall (fun line => whitespace_only line = true) lines ->
  stripped_lines lines = [].
Proof.
  induction 1 as [|line rest Hline _ IH]; simpl; [done|].
  by rewrite (strip_whitespace_only _ Hline).
Qed.

Lemma stripped_lines_fixed lines :
  Forall (fun line => trimmed line /\ line <> []) lines ->
  stripped_lines lines = lines.
Proof.
  induction 1 as [|line rest [Ht Hne] _ IH]; simpl; [done|].
  rewrite Ht, IH. by destruct line.
Qed.

Lemma stripped_lines_trimmed lines :
  Forall (fun line => trimmed line /\ line <> []) (stripped_lines lines).
Proof.
  induction lines as [|value rest IH]; simpl; [constructor|].
  destruct (strip value) as [|c t] eqn:Hs; simpl; [done|].
  constructor; [|done]. split; [|done].
  unfold trimmed. rewrite <- Hs. apply strip_idem.
Qed.

Lemma stripped_lines_no_newline lines :
  Forall (fun line => newline ∉ line) lines ->
  Forall (fun line => newline ∉ line) (stripped_lines lines).
Proof.
  induction 1 as [|line rest Hline _ IH]; simpl; [constructor|].
  destruct (PyStr.truthy (strip line)); [|done].
  constructor; [|done]. intros H. by apply Hline, strip_elem.
Qed.

(** The branch on the truth value of the text changes nothing: the
    empty text has one empty line, which is discarded. *)
Lemma text_to_list_split text :
  text_to_list text = stripped_lines (PyStr.split newline text).
Proof. by destruct text. Qed.

Lemma text_to_list_join lines :
  Forall (fun line => newline ∉ line) lines ->
  text_to_list (list_to_text lines) = stripped_lines lines.
Proof.
  intros H. rewrite text_to_list_split. unfold list_to_text.
  destruct lines as [|line rest]; [done|].
  by rewrite split_join.
Qed.

Lemma text_to_list_no_newline text :
  Forall (fun line => newline ∉ line) (text_to_list text).
Proof.
  rewrite text_to_list_split.
  apply stripped_lines_no_newline, split_no_sep.
Qed.

(** [clean] on a dictionary whose text entry is the string [text]. *)
Lemma clean_text (cleaned_data : gmap string Value.t) text :
  cleaned_data !! "core_values_text"%string = Some (VStr text) ->
  clean cleaned_data
  = Ok (<["core_values"%string := VList (text_to_list text)]> cleaned_data).
Proof.
  intros H. unfold clean, text_to_list. rewrite H. simpl.
  by destruct (PyStr.truthy text).
Qed.

(** Whenever [clean] returns, it returns its argument with one entry
    assigned. *)
Lemma clean_returns_insert (cleaned_data cleaned : gmap string Value.t) :
  clean cleaned_data = Ok cleaned ->
  exists core_values,
    cleaned = <["core_values"%string := VList core_values]> cleaned_data.
Proof.
  unfold clean.
  destruct (Value.truthy _).
  - destruct (Value.split _ _) as [lines|e]; simpl; [|done].
    intros [= <-]. eauto.
  - intros [= <-]. eauto.
Qed.

End StrippedLines.

(** ** The save-time and edit-load transformations *)

(** C1: for every input string held by [core_values_text], [clean]
    returns, and the [core_values] list it stores is the specified one:
    the text split on newline, each line trimmed, the lines that are
    empty after trimming discarded, the others kept as they are and in
    their order. *)
Theorem clean_core_values_spec (cleaned_data : gmap string Value.t) (text : str) :
  cleaned_data !! "core_values_text"%string = Some (VStr text) ->
  exists cleaned,
    clean cleaned_data = Ok cleaned
    /\ cleaned !! "core_values"%string = Some (VList (spec_text_to_list text)).
Proof.
  intros H. eexists. split; [by apply clean_text|].
  rewrite lookup_insert_eq. do 2 f_equal.
  rewrite text_to_list_split. apply stripped_lines_entries.
Qed.

Lemma clean_core_values_spec_witness :
  let cleaned_data : gmap string Value.t :=
    {[ "core_values_text"%string := VStr (of_string " Trust " ++ [newline] ++ of_string "Trust") ]} in
  cleaned_data !! "core_values_text"%string
  = Some (VStr (of_string " Trust " ++ [newline] ++ of_string "Trust"))
  /\ exists cleaned,
      clean cleaned_data = Ok cleaned
      /\ cleaned !! "core_values"%string
         = Some (VList (spec_text_to_list
                          (of_string " Trust " ++ [newline] ++ of_string "Trust"))).
Proof.
  intros cleaned_data.
  split; [reflexivity|].
  apply (clean_core_values_spec cleaned_data). reflexivity.
Defined.

(** C3: when the input string is empty or holds whitespace only, [clean]
    stores the empty list. *)
Theorem clean_whitespace_only (cleaned_data : gmap string Value.t) (text : str) :
  cleaned_data !! "core_values_text"%string = Some (VStr text) ->
  whitespace_only text = true ->
  clean cleaned_data = Ok (<["core_values"%string := VList []]> cleaned_data).
Proof.
  intros H Hw. rewrite (clean_text _ _ H). do 3 f_equal.
  rewrite text_to_list_split.
  by apply stripped_lines_whitespace_only, split_whitespace_only.
Qed.

Lemma clean_whitespace_only_witness :
  let text := [32; 9; newline; 13; newline; 160] in
  let cleaned_data : gmap string Value.t :=
    {[ "core_values_text"%string := VStr text ]} in
  cleaned_data !! "core_values_text"%string = Some (VStr text)
  /\ whitespace_only text = true
  /\ clean cleaned_data = Ok (<["core_values"%string := VList []]> cleaned_data).
Proof.
  intros text cleaned_data.
  split; [reflexivity|]. split; [reflexivity|].
  apply (clean_whitespace_only cleaned_data text); reflexivity.
Defined.

(** C4: the text ["  Integrity \nExcellence\n\n  "] is stored as the list
    [["Integrity"; "Excellence"]], and the edit form of an organization
    that holds this list shows ["Integrity\nExcellence"]. *)
Theorem integrity_excellence_example :
  let text :=
    of_string "  Integrity " ++ [newline] ++ of_string "Excellence"
    ++ [newline; newline] ++ of_string "  " in
  let values := [of_string "Integrity"; of_string "Excellence"] in
  let shown := of_string "Integrity" ++ [newline] ++ of_string "Excellence" in
  clean {[ "core_values_text"%string := VStr text ]}
  = Ok (<["core_values"%string := VList values]>
          {[ "core_values_text"%string := VStr text ]})
  /\ text_to_list text = values
  /\ list_to_text values = shown
  /\ presented_text
       (__init__ {| Organization.pk := Some 1%Z;
                    Organization.name := of_string "Ministry";
                    Organization.core_values := values |})
     = Some shown.
Proof.
  intros text values shown. split.
  - by rewrite (clean_text _ text) by reflexivity.
  - repeat split; reflexivity.
Qed.

(** C5: storing a text, showing the stored list and storing what is shown
    gives the stored list again; and a text whose lines are all trimmed
    and non-empty is shown again unchanged after it was stored. *)
Theorem text_list_text_roundtrip (text : str) :
  text_to_list (list_to_text (text_to_list text)) = text_to_list text
  /\ (Forall (fun line => trimmed line /\ line <> []) (PyStr.split newline text) ->
      list_to_text (text_to_list text) = text).
Proof.
  split.
  - rewrite text_to_list_join by apply text_to_list_no_newline.
    rewrite text_to_list_split, stripped_lines_fixed; [done|].
    apply stripped_lines_trimmed.
  - intros H. rewrite text_to_list_split, stripped_lines_fixed by done.
    apply join_split.
Qed.

Lemma Forall_trimmed_dec (lines : list str) :
  forallb (fun line => bool_decide (strip line = line) && PyStr.truthy line) lines = true ->
  Forall (fun line => trimmed line /\ line <> []) lines.
Proof.
  induction lines as [|line rest IH]; simpl; [constructor|].
  intros [[Ht Hne]%andb_prop Hrest]%andb_prop.
  constructor; [|auto]. split.
  - by apply bool_decide_eq_true in Ht.
  - by destruct line.
Qed.

Lemma text_list_text_roundtrip_witness :
  let text := of_string "Integrity" ++ [newline] ++ of_string "Team work" in
  Forall (fun line => trimmed line /\ line <> []) (PyStr.split newline text)
  /\ text_to_list (list_to_text (text_to_list text)) = text_to_list text
  /\ list_to_text (text_to_list text) = text.
Proof.
  intros text.
  assert (Forall (fun line => trimmed line /\ line <> []) (PyStr.split newline text)) as H.
  { apply Forall_trimmed_dec. reflexivity. }
  split; [exact H|].
  split; [exact (proj1 (text_list_text_roundtrip text))
         |exact (proj2 (text_list_text_roundtrip text) H)].
Defined.

(** A stored entry that contains a newline is shown on two lines of the
    text and comes back as two entries. *)
Lemma list_text_list_counterexample :
  let l := [of_string "Team" ++ [newline] ++ of_string "work"] in
  text_to_list (list_to_text l) = [of_string "Team"; of_string "work"]
  /\ nonempty_trimmed_entries l = l
  /\ text_to_list (list_to_text l) <> nonempty_trimmed_entries l
  /\ length (text_to_list (list_to_text l)) <> length (nonempty_trimmed_entries l).
Proof. intros l. repeat split; try reflexivity; discriminate. Qed.

(** C6 (amended): for every list of strings none of which contains a
    newline, showing the list as text and storing that text gives the
    entries of the list that are not empty once trimmed, trimmed, in the
    same order and so in the same number. *)
Theorem list_text_list_roundtrip (l : list str) :
  Forall (fun entry => newline ∉ entry) l ->
  text_to_list (list_to_text l) = nonempty_trimmed_entries l
  /\ length (text_to_list (list_to_text l)) = length (nonempty_trimmed_entries l).
Proof.
  intros H.
  assert (text_to_list (list_to_text l) = nonempty_trimmed_entries l) as ->; [|done].
  rewrite text_to_list_join by done. apply stripped_lines_entries.
Qed.

Lemma Forall_no_newline_dec (l : list str) :
  forallb (fun entry => forallb (fun c => negb (c =? newline)) entry) l = true ->
  Forall (fun entry => newline ∉ entry) l.
Proof.
  induction l as [|entry rest IH]; simpl; [constructor|].
  intros [He Hrest]%andb_prop. constructor; [|auto].
  clear -He. induction entry as [|c entry IH]; simpl in *.
  - apply not_elem_of_nil.
  - apply andb_prop in He as [Hc He].
    apply not_elem_of_cons. split; [|auto].
    intros <-. by rewrite N.eqb_refl in Hc.
Qed.

Lemma list_text_list_roundtrip_witness :
  let l := [of_string " Integrity"; of_string "  "; []; of_string "Integrity"] in
  Forall (fun entry => newline ∉ entry) l
  /\ text_to_list (list_to_text l) = nonempty_trimmed_entries l
  /\ length (text_to_list (list_to_text l)) = length (nonempty_trimmed_entries l).
Proof.
  intros l.
  assert (Forall (fun entry => newline ∉ entry) l) as H.
  { apply Forall_no_newline_dec. reflexivity. }
  split; [exact H|]. exact (list_text_list_roundtrip l H).
Defined.




(** C8: whenever the text entry is one [clean] can read (absent, not
    truthy, or a string), [clean] returns, and every entry of what it
    returns other than [core_values] is the entry of the dictionary it
    was given. *)
Theorem clean_frame (cleaned_data : gmap string Value.t) :
  (forall v, cleaned_data !! "core_values_text"%string = Some v ->
             Value.truthy v = true -> exists text, v = VStr text) ->
  exists cleaned,
    clean cleaned_data = Ok cleaned
    /\ forall key, key <> "core_values"%string ->
                   cleaned !! key = cleaned_data !! key.
Proof.
  intros Htext.
  assert (exists cleaned, clean cleaned_data = Ok cleaned) as [cleaned Hc].
  { unfold clean.
    destruct (cleaned_data !! "core_values_text"%string) as [v|] eqn:Hv; simpl.
    - destruct (Value.truthy v) eqn:Ht; [|eauto].
      destruct (Htext v eq_refl Ht) as [text ->]. simpl. eauto.
    - eauto. }
  exists cleaned. split; [done|].
  intros key Hkey.
  destruct (clean_returns_insert _ _ Hc) as [core_values ->].
  by rewrite lookup_insert_ne.
Qed.

Lemma clean_frame_witness :
  let cleaned_data : gmap string Value.t :=
    {[ "core_values_text"%string := VStr (of_string "Integrity") ]} in
  (forall v, cleaned_data !! "core_values_text"%string = Some v ->
             Value.truthy v = true -> exists text, v = VStr text)
  /\ exists cleaned,
      clean cleaned_data = Ok cleaned
      /\ forall key, key <> "core_values"%string ->
                     cleaned !! key = cleaned_data !! key.
Proof.
  intros cleaned_data.
  assert (forall v, cleaned_data !! "core_values_text"%string = Some v ->
                    Value.truthy v = true -> exists text, v = VStr text) as H.
  { intros v Hv _. subst cleaned_data.
    rewrite lookup_singleton_eq in Hv. injection Hv as <-. eauto. }
  split; [exact H|]. exact (clean_frame cleaned_data H).
Defined.

(** ** Display helpers *)

Import TeamDeskPlanAdmin TeamDeskPlanReviewAdmin.

Lemma get_team_desk_name_absent (obj : TeamDeskPlan.t) :
  TeamDeskPlan.team_desk obj = None -> get_team_desk_name obj = Ok NA.
Proof. intros H. unfold get_team_desk_name. by rewrite H. Qed.

Lemma get_organization_name_absent (obj : TeamDeskPlan.t) :
  TeamDeskPlan.organization obj = None -> get_organization_name obj = Ok NA.
Proof. intros H. unfold get_organization_name. by rewrite H. Qed.

(** Both hops of [get_leo_eo_plan_name] are guarded. *)
Lemma get_leo_eo_plan_name_absent (obj : TeamDeskPlan.t) :
  TeamDeskPlan.leo_eo_plan obj = None
  \/ (exists p, TeamDeskPlan.leo_eo_plan obj = Some p /\ Plan.organization p = None) ->
  get_leo_eo_plan_name obj = Ok NA.
Proof.
  unfold get_leo_eo_plan_name. intros [H|(p & H & Ho)]; rewrite H; simpl; [done|].
  by rewrite Ho.
Qed.

Lemma get_plan_info_absent (obj : TeamDeskPlanReview.t) :
  TeamDeskPlanReview.plan obj = None
  \/ (exists p, TeamDeskPlanReview.plan obj = Some p /\ TeamDeskPlan.team_desk p = None) ->
  get_plan_info obj = Ok NA.
Proof.
  unfold get_plan_info. intros [H|(p & H & Ht)]; rewrite H; simpl; [done|].
  by rewrite Ht.
Qed.

(** The helpers of [TeamDeskPlanAdmin] and [get_reviewer_name] return on
    every record. *)
Lemma plan_helpers_return (obj : TeamDeskPlan.t) :
  (exists s, get_team_desk_name obj = Ok s)
  /\ (exists s, get_organization_name obj = Ok s)
  /\ (exists s, get_leo_eo_plan_name obj = Ok s).
Proof.
  unfold get_team_desk_name, get_organization_name, get_leo_eo_plan_name.
  destruct obj as [o td leo st]; simpl.
  repeat split.
  - destruct td; simpl; eauto.
  - destruct o; simpl; eauto.
  - destruct leo as [[[?|]]|]; simpl; eauto.
Qed.

Lemma get_reviewer_name_returns (obj : TeamDeskPlanReview.t) :
  exists s, get_reviewer_name obj = Ok s.
Proof.
  unfold get_reviewer_name.
  destruct (TeamDeskPlanReview.reviewer obj) as [[[u|]]|]; simpl; eauto.
  destruct (PyStr.truthy _); simpl; eauto.
Qed.

(** The organization hop of [get_plan_info] is not guarded. *)
Lemma get_plan_info_unguarded_organization (obj : TeamDeskPlanReview.t) p td :
  TeamDeskPlanReview.plan obj = Some p ->
  TeamDeskPlan.team_desk p = Some td ->
  TeamDeskPlan.organization p = None ->
  get_plan_info obj = Raise AttributeError.
Proof.
  intros Hp Htd Ho. unfold get_plan_info. rewrite Hp. simpl.
  rewrite Htd. simpl. by rewrite Ho.
Qed.

(** C2: on a review whose plan and team desk are set and whose plan has
    no organization, [get_plan_info] raises [AttributeError]; it does not
    return ['N/A']. *)
Theorem get_plan_info_raises_without_organization :
  get_plan_info
    {| TeamDeskPlanReview.plan :=
         Some {| TeamDeskPlan.organization := None;
                 TeamDeskPlan.team_desk := Some {| TeamDesk.name := of_string "Desk A" |};
                 TeamDeskPlan.leo_eo_plan := None;
                 TeamDeskPlan.status := of_string "DRAFT" |};
       TeamDeskPlanReview.reviewer := None;
       TeamDeskPlanReview.status := of_string "PENDING";
       TeamDeskPlanReview.feedback := [] |}
  = Raise AttributeError.
Proof. reflexivity. Qed.

(** C10: [get_reviewer_name] returns the full name of the reviewer's user
    when it is not empty, the username when the full name is empty, and
    ['N/A'] when the reviewer or its user is absent. *)
Theorem get_reviewer_name_spec (obj : TeamDeskPlanReview.t) :
  (forall r u,
      TeamDeskPlanReview.reviewer obj = Some r -> OrganizationUser.user r = Some u ->
      User.get_full_name u <> [] ->
      get_reviewer_name obj = Ok (User.get_full_name u))
  /\ (forall r u,
      TeamDeskPlanReview.reviewer obj = Some r -> OrganizationUser.user r = Some u ->
      User.get_full_name u = [] ->
      get_reviewer_name obj = Ok (User.username u))
  /\ (TeamDeskPlanReview.reviewer obj = None
      \/ (exists r, TeamDeskPlanReview.reviewer obj = Some r
                    /\ OrganizationUser.user r = None) ->
      get_reviewer_name obj = Ok NA).
Proof.
  unfold get_reviewer_name. repeat split.
  - intros r u -> Hu Hn. simpl. rewrite Hu. simpl.
    by destruct (User.get_full_name u).
  - intros r u -> Hu Hn. simpl. rewrite Hu. simpl. by rewrite Hn.
  - intros [->|(r & -> & Hu)]; simpl; [done|]. by rewrite Hu.
Qed.

Lemma get_reviewer_name_spec_witness :
  let review u :=
    {| TeamDeskPlanReview.plan := None;
       TeamDeskPlanReview.reviewer := u;
       TeamDeskPlanReview.status := of_string "APPROVED";
       TeamDeskPlanReview.feedback := [] |} in
  let named :=
    {| User.username := of_string "abebe"; User.get_full_name := of_string "Abebe Kebede" |} in
  let unnamed :=
    {| User.username := of_string "abebe"; User.get_full_name := [] |} in
  get_reviewer_name (review (Some {| OrganizationUser.user := Some named |}))
  = Ok (of_string "Abebe Kebede")
  /\ get_reviewer_name (review (Some {| OrganizationUser.user := Some unnamed |}))
     = Ok (of_string "abebe")
  /\ get_reviewer_name (review (Some {| OrganizationUser.user := None |})) = Ok NA
  /\ get_reviewer_name (review None) = Ok NA.
Proof.
  intros review named unnamed. split; [|split; [|split]].
  - apply (proj1 (get_reviewer_name_spec
                    (review (Some {| OrganizationUser.user := Some named |})))
             {| OrganizationUser.user := Some named |} named);
      [reflexivity|reflexivity|discriminate].
  - apply (proj1 (proj2 (get_reviewer_name_spec
                    (review (Some {| OrganizationUser.user := Some unnamed |}))))
             {| OrganizationUser.user := Some unnamed |} unnamed); reflexivity.
  - apply (proj2 (proj2 (get_reviewer_name_spec
                    (review (Some {| OrganizationUser.user := None |}))))).
    right. exists {| OrganizationUser.user := None |}. split; reflexivity.
  - apply (proj2 (proj2 (get_reviewer_name_spec (review None)))).
    left. reflexivity.
Defined.

(** ** Migrations *)

Import Migrations.

(** Migration 0013 loads, and it is one [AddField] of the many-to-many
    relation [selected_objectives] on [plan]. *)
Lemma migration_0013_additive :
  load file_0013 = inl class_0013
  /\ Forall (fun op => is_add_field op = true /\ touches_existing_column op = false)
            (operations class_0013)
  /\ (exists field,
         operations class_0013 = [AddField "plan" "selected_objectives" field]
         /\ field_type field = ManyToManyField).
Proof.
  split; [reflexivity|]. split; [repeat constructor|].
  eexists. split; reflexivity.
Qed.

(** The class statement written in the file of 0016 is one [AddField] of
    the nullable JSON column [selected_objectives_weights] on [plan]. *)
Lemma migration_0016_text_additive :
  Forall (fun op => is_add_field op = true /\ touches_existing_column op = false)
         (operations class_0016)
  /\ (exists field,
         operations class_0016 = [AddField "plan" "selected_objectives_weights" field]
         /\ field_type field = JSONField /\ null field = true).
Proof.
  split; [repeat constructor|]. eexists. repeat split; reflexivity.
Qed.

(** A file with a line that is not Python loads no migration, whatever
    else it holds. *)
Lemma load_not_python file text :
  NotPython text ∈ file -> load file = inr SyntaxError.
Proof.
  intros H. unfold load.
  assert (forallb is_python file = false) as ->; [|done].
  induction file as [|s file IH]; [by apply elem_of_nil in H|].
  apply elem_of_cons in H as [<-|H]; simpl; [done|].
  rewrite IH by done. apply andb_false_r.
Qed.

(** C9: the file of migration 0016 as shipped does not load: its last
    line is not Python, compiling the module is a [SyntaxError], so no
    migration is defined and no column is added.  Without that line the
    file loads the [AddField] written in it. *)
Theorem migration_0016_does_not_load :
  load file_0016 = inr SyntaxError
  /\ load (removelast file_0016) = inl class_0016.
Proof. split; reflexivity. Qed.

(** * Further properties of the code *)

(** ** [clean]: repeated calls, error behaviour, the stored values *)

Lemma clean_lookup_text (cleaned_data : gmap string Value.t) v :
  <["core_values"%string := v]> cleaned_data !! "core_values_text"%string
  = cleaned_data !! "core_values_text"%string.
Proof. by rewrite lookup_insert_ne. Qed.

Lemma clean_after_insert (cleaned_data : gmap string Value.t) v :
  clean (<["core_values"%string := v]> cleaned_data) = clean cleaned_data.
Proof.
  unfold clean. rewrite clean_lookup_text.
  destruct (Value.truthy _).
  - destruct (Value.split _ _) as [lines|e]; simpl; [|done].
    unfold mret, result_ret. by rewrite insert_insert_eq.
  - unfold mret, result_ret. by rewrite insert_insert_eq.
Qed.

(** Whatever [cleaned_data] already holds under [core_values] is
    overwritten: the result of [clean] does not depend on it. *)
Theorem clean_overwrites_core_values (cleaned_data : gmap string Value.t) v :
  clean (<["core_values"%string := v]> cleaned_data) = clean cleaned_data.
Proof. apply clean_after_insert. Qed.

(** Running [clean] again on the dictionary it returned returns that
    dictionary. *)
Theorem clean_idempotent (cleaned_data cleaned : gmap string Value.t) :
  clean cleaned_data = Ok cleaned -> clean cleaned = Ok cleaned.
Proof.
  intros H. destruct (clean_returns_insert _ _ H) as [values ->].
  by rewrite clean_after_insert.
Qed.

Lemma clean_idempotent_witness :
  let cleaned_data : gmap string Value.t :=
    {[ "core_values_text"%string := VStr (of_string " Trust ");
       "name"%string := VStr (of_string "Ministry") ]} in
  let cleaned := <["core_values"%string := VList [of_string "Trust"]]> cleaned_data in
  clean cleaned_data = Ok cleaned /\ clean cleaned = Ok cleaned.
Proof.
  intros cleaned_data cleaned.
  assert (clean cleaned_data = Ok cleaned) as H.
  { by rewrite (clean_text _ (of_string " Trust ")) by reflexivity. }
  split; [exact H|]. exact (clean_idempotent cleaned_data cleaned H).
Defined.

(** When the text entry is missing or is not truthy (the empty string,
    [None]), [clean] stores the empty list. *)
Theorem clean_absent_or_falsy (cleaned_data : gmap string Value.t) :
  cleaned_data !! "core_values_text"%string = None
  \/ (exists v, cleaned_data !! "core_values_text"%string = Some v
                /\ Value.truthy v = false) ->
  clean cleaned_data = Ok (<["core_values"%string := VList []]> cleaned_data).
Proof.
  unfold clean. intros [->|(v & -> & Hv)]; simpl; [done|]. by rewrite Hv.
Qed.

Lemma clean_absent_or_falsy_witness :
  let missing : gmap string Value.t := {[ "name"%string := VStr (of_string "Ministry") ]} in
  let none : gmap string Value.t := {[ "core_values_text"%string := VNone ]} in
  clean missing = Ok (<["core_values"%string := VList []]> missing)
  /\ clean none = Ok (<["core_values"%string := VList []]> none).
Proof.
  intros missing none. split.
  - apply (clean_absent_or_falsy missing). left. reflexivity.
  - apply (clean_absent_or_falsy none). right. exists VNone. split; reflexivity.
Defined.

Lemma trimmed_ends (value : str) :
  trimmed value ->
  (forall c, head value = Some c -> is_whitespace c = false)
  /\ (forall c, last value = Some c -> is_whitespace c = false).
Proof.
  unfold trimmed, strip. intros Ht. split; intros c Hc.
  - pose proof (lstrip_head value) as Hl.
    destruct (lstrip value) as [|d t] eqn:Hv.
    + simpl in Ht. subst value. done.
    + rewrite rstrip_cons_keep in Ht by done. subst value.
      simpl in Hc. by injection Hc as <-.
  - pose proof (rstrip_last (lstrip value)) as Hl.
    rewrite Ht, Hc in Hl. done.
Qed.

(** Every value [clean] stores is normalised: it is not empty, holds no
    newline, and neither starts nor ends with whitespace. *)
Theorem clean_stores_normalised (cleaned_data : gmap string Value.t) text :
  cleaned_data !! "core_values_text"%string = Some (VStr text) ->
  exists values,
    clean cleaned_data
    = Ok (<["core_values"%string := VList values]> cleaned_data)
    /\ Forall normalised values.
Proof.
  intros H. exists (text_to_list text). split; [by apply clean_text|].
  pose proof (text_to_list_no_newline text) as Hn.
  rewrite text_to_list_split in *.
  pose proof (stripped_lines_trimmed (PyStr.split newline text)) as Ht.
  induction Ht as [|value rest [Hv Hne] _ IH]; [constructor|].
  inversion Hn; subst. constructor; [|auto].
  unfold normalised. pose proof (trimmed_ends _ Hv). tauto.
Qed.

Lemma clean_stores_normalised_witness :
  let text := of_string "  Integrity " ++ [13; newline; newline] ++ of_string " Team work" in
  let cleaned_data : gmap string Value.t :=
    {[ "core_values_text"%string := VStr text ]} in
  exists values,
    clean cleaned_data
    = Ok (<["core_values"%string := VList values]> cleaned_data)
    /\ Forall normalised values.
Proof.
  intros text cleaned_data.
  apply (clean_stores_normalised cleaned_data text). reflexivity.
Defined.

(** ** [clean]: how the stored list relates to the text *)

Section Pieces.

Variable sep : char.

Lemma split_length s :
  length (PyStr.split sep s) = S (length (List.filter (fun c => c =? sep) s)).
Proof.
  induction s as [|c s IH]; simpl; [done|].
  destruct (c =? sep); simpl; [by rewrite IH|].
  pose proof (split_not_nil sep s).
  destruct (PyStr.split sep s); [done|]. exact IH.
Qed.

Lemma split_app_sep a b :
  PyStr.split sep (a ++ sep :: b) = PyStr.split sep a ++ PyStr.split sep b.
Proof.
  induction a as [|c a IH]; simpl.
  - by rewrite N.eqb_refl.
  - destruct (c =? sep); [by rewrite IH|].
    rewrite IH. pose proof (split_not_nil sep a).
    by destruct (PyStr.split sep a).
Qed.

(** The first piece starts the string. *)
Lemma split_head_prefix s piece pieces :
  PyStr.split sep s = piece :: pieces -> exists post, s = piece ++ post.
Proof.
  revert piece pieces. induction s as [|c s IH]; simpl; intros piece pieces.
  - intros [= <- <-]. by exists [].
  - destruct (c =? sep).
    + intros [= <- <-]. by exists (c :: s).
    + destruct (PyStr.split sep s) as [|p ps] eqn:Hs.
      * intros [= <- <-]. pose proof (split_not_nil sep s). done.
      * intros [= <- <-]. destruct (IH p ps eq_refl) as [post ->].
        by exists post.
Qed.

(** Every piece is a contiguous part of the string. *)
Lemma split_piece_infix s piece :
  piece ∈ PyStr.split sep s -> exists pre post, s = pre ++ piece ++ post.
Proof.
  revert piece. induction s as [|c s IH]; simpl; intros piece.
  - intros ->%list_elem_of_singleton. by exists [], [].
  - destruct (c =? sep).
    + intros [->|H]%elem_of_cons.
      * by exists [], (c :: s).
      * destruct (IH _ H) as (pre & post & ->). by exists (c :: pre), post.
    + destruct (PyStr.split sep s) as [|p ps] eqn:Hs.
      * intros ->%list_elem_of_singleton. pose proof (split_not_nil sep s). done.
      * intros [->|H]%elem_of_cons.
        -- destruct (split_head_prefix s p ps Hs) as [post ->].
           by exists [], post.
        -- destruct (IH piece) as (pre & post & ->); [by right|].
           by exists (c :: pre), post.
Qed.

End Pieces.

Lemma stripped_lines_app a b :
  stripped_lines (a ++ b) = stripped_lines a ++ stripped_lines b.
Proof.
  induction a as [|value a IH]; simpl; [done|].
  destruct (PyStr.truthy (strip value)); simpl; by rewrite IH.
Qed.

Lemma stripped_lines_length lines :
  (length (stripped_lines lines) <= length lines)%nat.
Proof.
  induction lines as [|value lines IH]; simpl; [done|].
  destruct (PyStr.truthy (strip value)); simpl; lia.
Qed.

Lemma stripped_lines_elem value lines :
  value ∈ stripped_lines lines -> exists line, line ∈ lines /\ value = strip line.
Proof.
  induction lines as [|line lines IH]; simpl; [by intros ?%elem_of_nil|].
  destruct (PyStr.truthy (strip line)).
  - intros [->|H]%elem_of_cons.
    + exists line. split; [left|done].
    + destruct (IH H) as (l & Hl & ->). exists l. split; [by right|done].
  - intros H. destruct (IH H) as (l & Hl & ->). exists l. split; [by right|done].
Qed.

(** The stored list has at most one value per line of the text: its
    length is at most the number of newlines plus one. *)
Theorem text_to_list_length (text : str) :
  (length (text_to_list text) <= S (count_newlines text))%nat.
Proof.
  rewrite text_to_list_split. unfold count_newlines.
  rewrite <- split_length. apply stripped_lines_length.
Qed.

(** [clean] stores nothing that was not typed: every stored value is a
    contiguous part of the text. *)
Theorem text_to_list_infix (text value : str) :
  value ∈ text_to_list text -> exists pre post, text = pre ++ value ++ post.
Proof.
  rewrite text_to_list_split.
  intros (line & Hline & ->)%stripped_lines_elem.
  destruct (split_piece_infix _ _ _ Hline) as (pre & post & ->).
  destruct (strip_decompose line) as (l & r & Hl & _ & _).
  exists (pre ++ l), (r ++ post).
  rewrite Hl at 1. by rewrite <- !app_assoc.
Qed.

Lemma text_to_list_infix_witness :
  let text := of_string "  Integrity " ++ [newline] ++ of_string "Excellence" in
  of_string "Integrity" ∈ text_to_list text
  /\ exists pre post, text = pre ++ of_string "Integrity" ++ post.
Proof.
  intros text.
  assert (of_string "Integrity" ∈ text_to_list text) as H by left.
  split; [exact H|]. exact (text_to_list_infix text _ H).
Defined.

(** The list stored for two texts put one after the other, a newline
    between them, is the list of the first followed by the list of the
    second. *)
Theorem text_to_list_app (a b : str) :
  text_to_list (a ++ newline :: b) = text_to_list a ++ text_to_list b.
Proof.
  rewrite !text_to_list_split, split_app_sep. apply stripped_lines_app.
Qed.

(** ** [clean]: carriage returns *)

Lemma lstrip_app a b :
  lstrip (a ++ b) = if whitespace_only a then lstrip b else lstrip a ++ b.
Proof.
  induction a as [|c a IH]; simpl; [done|].
  destruct (is_whitespace c); simpl; [exact IH|done].
Qed.

Lemma rstrip_snoc_whitespace s w :
  is_whitespace w = true -> rstrip (s ++ [w]) = rstrip s.
Proof.
  intros Hw. induction s as [|c s IH]; simpl; [by rewrite Hw|].
  by rewrite IH.
Qed.

Lemma strip_snoc_whitespace s w :
  is_whitespace w = true -> strip (s ++ [w]) = strip s.
Proof.
  intros Hw. unfold strip. rewrite lstrip_app.
  destruct (whitespace_only s) eqn:Hs.
  - rewrite (lstrip_whitespace_only _ Hs). simpl. by rewrite Hw.
  - by apply rstrip_snoc_whitespace.
Qed.

Lemma split_to_crlf text :
  Forall2 same_up_to_cr
          (PyStr.split newline (to_crlf text)) (PyStr.split newline text).
Proof.
  induction text as [|c text IH]; simpl.
  - repeat constructor.
  - destruct (N.eqb_spec c newline) as [->|Hc].
    + change (PyStr.split newline (13 :: newline :: to_crlf text))
        with ([13] :: PyStr.split newline (to_crlf text)).
      constructor; [by right|done].
    + simpl. destruct (N.eqb_spec c newline) as [|_]; [done|].
      destruct IH as [|x y xs ys Hxy Hrest]; [repeat constructor|].
      constructor; [|done].
      destruct Hxy as [->| ->]; [by left|by right].
Qed.

Lemma stripped_lines_same_up_to_cr xs ys :
  Forall2 same_up_to_cr xs ys -> stripped_lines xs = stripped_lines ys.
Proof.
  induction 1 as [|x y xs ys Hxy _ IH]; simpl; [done|].
  assert (strip x = strip y) as ->.
  { destruct Hxy as [->| ->]; [done|]. by apply strip_snoc_whitespace. }
  by rewrite IH.
Qed.

(** A text submitted with carriage return, newline line endings is stored
    as the same list as the text with plain newlines. *)
Theorem text_to_list_crlf (text : str) :
  text_to_list (to_crlf text) = text_to_list text.
Proof.
  rewrite !text_to_list_split.
  apply stripped_lines_same_up_to_cr, split_to_crlf.
Qed.

(** ** [__init__]: what it sets and what it leaves *)

Lemma normalised_fixed (values : list str) :
  Forall normalised values ->
  Forall (fun entry => newline ∉ entry) values
  /\ Forall (fun line => trimmed line /\ line <> []) values.
Proof.
  induction 1 as [|value rest (Hne & Hnl & Ht & _) _ [IH1 IH2]].
  - split; constructor.
  - split; constructor; auto.
Qed.

(** Loading the edit form of a persisted organization and saving what it
    shows stores the persisted list again, whenever that list is not
    empty and its values are normalised (as the values [clean] stores
    are). *)
Theorem edit_load_then_save (organization : Organization.t) :
  pk_truthy (Organization.pk organization) = true ->
  Organization.core_values organization <> [] ->
  Forall normalised (Organization.core_values organization) ->
  exists shown,
    presented_text (__init__ organization) = Some shown
    /\ text_to_list shown = Organization.core_values organization.
Proof.
  intros Hpk Hne Hn. exists (list_to_text (Organization.core_values organization)).
  destruct (normalised_fixed _ Hn) as [Hnl Hfix]. split.
  - unfold __init__, presented_text. simpl. rewrite Hpk.
    destruct (Organization.core_values organization); [done|]. simpl.
    by rewrite lookup_alter_eq, lookup_singleton_eq.
  - rewrite text_to_list_join by done. by apply stripped_lines_fixed.
Qed.

Lemma normalised_dec (value : str) :
  PyStr.truthy value = true ->
  forallb (fun c => negb (c =? newline)) value = true ->
  bool_decide (strip value = value) = true ->
  normalised value.
Proof.
  intros Hne Hnl Ht. apply bool_decide_eq_true in Ht.
  unfold normalised. pose proof (trimmed_ends value Ht) as [Hh Hl].
  split; [by destruct value|]. split; [|done].
  clear -Hnl. induction value as [|c value IH]; simpl in *.
  - apply not_elem_of_nil.
  - apply andb_prop in Hnl as [Hc Hnl]. apply not_elem_of_cons. split; [|auto].
    intros <-. by rewrite N.eqb_refl in Hc.
Qed.

Lemma edit_load_then_save_witness :
  let values := [of_string "Integrity"; of_string "Team work"] in
  let organization :=
    {| Organization.pk := Some 3%Z;
       Organization.name := of_string "Ministry";
       Organization.core_values := values |} in
  pk_truthy (Some 3%Z) = true
  /\ values <> []
  /\ Forall normalised values
  /\ exists shown,
      presented_text (__init__ organization) = Some shown
      /\ text_to_list shown = values.
Proof.
  intros values organization.
  assert (Forall normalised values) as Hn.
  { repeat constructor; apply normalised_dec; reflexivity. }
  split; [reflexivity|]. split; [discriminate|]. split; [exact Hn|].
  apply (edit_load_then_save organization); [reflexivity|discriminate|exact Hn].
Defined.

(** [__init__] sets an initial text exactly when the organization is
    persisted and its list of core values is not empty; in particular the
    form of an organization that is not saved yet shows none. *)
Theorem edit_load_sets_initial_iff (organization : Organization.t) :
  is_Some (presented_text (__init__ organization))
  <-> pk_truthy (Organization.pk organization) = true
      /\ Organization.core_values organization <> [].
Proof.
  unfold __init__, presented_text. simpl.
  destruct (pk_truthy _); simpl.
  - destruct (Organization.core_values organization) as [|value rest]; simpl.
    + rewrite lookup_singleton_eq. simpl. split; [by intros [? ?]|by intros [_ ?]].
    + rewrite lookup_alter_eq, lookup_singleton_eq. simpl.
      split; [done|]. intros _. eauto.
  - rewrite lookup_singleton_eq. simpl. split; [by intros [? ?]|by intros [? _]].
Qed.

Lemma edit_load_sets_initial_iff_witness :
  let organization :=
    {| Organization.pk := Some 7%Z;
       Organization.name := of_string "Ministry";
       Organization.core_values := [of_string "Integrity"] |} in
  (pk_truthy (Some 7%Z) = true /\ [of_string "Integrity"] <> [])
  /\ is_Some (presented_text (__init__ organization)).
Proof.
  intros organization.
  assert (pk_truthy (Some 7%Z) = true /\ [of_string "Integrity"] <> []) as H.
  { split; [reflexivity|discriminate]. }
  split; [exact H|].
  exact (proj2 (edit_load_sets_initial_iff organization) H).
Defined.

(** ** Display helpers: when they return and when they raise *)

(** The three computed columns of [TeamDeskPlanAdmin] return a label on
    every plan: none of them raises, whichever relations are absent. *)
Theorem plan_columns_never_raise (obj : TeamDeskPlan.t) e :
  get_team_desk_name obj <> Raise e
  /\ get_organization_name obj <> Raise e
  /\ get_leo_eo_plan_name obj <> Raise e.
Proof.
  unfold get_team_desk_name, get_organization_name, get_leo_eo_plan_name.
  destruct obj as [o td leo st]; simpl.
  split; [|split].
  - by destruct td.
  - by destruct o.
  - by destruct leo as [[[?|]]|].
Qed.

(** [get_leo_eo_plan_name] returns the organization's name followed by
    [" Plan"] when the higher-level plan and its organization are both
    set, and ['N/A'] in every other case. *)
Theorem get_leo_eo_plan_name_cases (obj : TeamDeskPlan.t) :
  get_leo_eo_plan_name obj
  = Ok (match TeamDeskPlan.leo_eo_plan obj ≫= Plan.organization with
        | Some organization => Organization.name organization ++ of_string " Plan"
        | None => NA
        end).
Proof.
  unfold get_leo_eo_plan_name.
  by destruct (TeamDeskPlan.leo_eo_plan obj) as [[[?|]]|].
Qed.

(** [get_plan_info] raises exactly on a review whose plan and team desk
    are set and whose plan has no organization; the exception is
    [AttributeError]. *)
Theorem get_plan_info_raises_iff (obj : TeamDeskPlanReview.t) e :
  get_plan_info obj = Raise e
  <-> e = AttributeError
      /\ exists p td, TeamDeskPlanReview.plan obj = Some p
                      /\ TeamDeskPlan.team_desk p = Some td
                      /\ TeamDeskPlan.organization p = None.
Proof.
  unfold get_plan_info. split.
  - destruct (TeamDeskPlanReview.plan obj) as [p|]; simpl; [|done].
    destruct (TeamDeskPlan.team_desk p) as [td|] eqn:Htd; simpl; [|done].
    destruct (TeamDeskPlan.organization p) as [o|] eqn:Ho; simpl; [done|].
    intros [= <-]. split; [done|]. by exists p, td.
  - intros (-> & p & td & -> & Htd & Ho). simpl. rewrite Htd. simpl. by rewrite Ho.
Qed.

Lemma get_plan_info_raises_iff_witness :
  let p :=
    {| TeamDeskPlan.organization := None;
       TeamDeskPlan.team_desk := Some {| TeamDesk.name := of_string "Desk B" |};
       TeamDeskPlan.leo_eo_plan := None;
       TeamDeskPlan.status := of_string "SUBMITTED" |} in
  let obj :=
    {| TeamDeskPlanReview.plan := Some p;
       TeamDeskPlanReview.reviewer := None;
       TeamDeskPlanReview.status := of_string "PENDING";
       TeamDeskPlanReview.feedback := [] |} in
  get_plan_info obj = Raise AttributeError.
Proof.
  intros p obj.
  apply (proj2 (get_plan_info_raises_iff obj AttributeError)).
  split; [reflexivity|].
  exists p, {| TeamDesk.name := of_string "Desk B" |}.
  split; [reflexivity|]. split; reflexivity.
Defined.

(** On a review whose plan, team desk and organization are all set,
    [get_plan_info] returns the team desk's name followed by the
    organization's name in parentheses. *)
Theorem get_plan_info_label (obj : TeamDeskPlanReview.t) p td o :
  TeamDeskPlanReview.plan obj = Some p ->
  TeamDeskPlan.team_desk p = Some td ->
  TeamDeskPlan.organization p = Some o ->
  get_plan_info obj
  = Ok (TeamDesk.name td ++ of_string " (" ++ Organization.name o ++ of_string ")").
Proof.
  intros Hp Htd Ho. unfold get_plan_info. rewrite Hp. simpl.
  rewrite Htd. simpl. by rewrite Ho.
Qed.

Lemma get_plan_info_label_witness :
  let o :=
    {| Organization.pk := Some 2%Z;
       Organization.name := of_string "Ministry";
       Organization.core_values := [] |} in
  let td := {| TeamDesk.name := of_string "Desk B" |} in
  let p :=
    {| TeamDeskPlan.organization := Some o;
       TeamDeskPlan.team_desk := Some td;
       TeamDeskPlan.leo_eo_plan := None;
       TeamDeskPlan.status := of_string "SUBMITTED" |} in
  let obj :=
    {| TeamDeskPlanReview.plan := Some p;
       TeamDeskPlanReview.reviewer := None;
       TeamDeskPlanReview.status := of_string "PENDING";
       TeamDeskPlanReview.feedback := [] |} in
  get_plan_info obj = Ok (of_string "Desk B (Ministry)").
Proof.
  intros o td p obj.
  apply (get_plan_info_label obj p td o); reflexivity.
Defined.

(** [get_reviewer_name] never raises, and the name it returns is empty
    only when the reviewer's user has neither a full name nor a
    username. *)
Theorem get_reviewer_name_total (obj : TeamDeskPlanReview.t) :
  exists label,
    get_reviewer_name obj = Ok label
    /\ (label = [] ->
        exists r u, TeamDeskPlanReview.reviewer obj = Some r
                    /\ OrganizationUser.user r = Some u
                    /\ User.get_full_name u = [] /\ User.username u = []).
Proof.
  unfold get_reviewer_name.
  destruct (TeamDeskPlanReview.reviewer obj) as [[[u|]]|]; simpl;
    try (exists NA; split; [done|discriminate]).
  destruct (User.get_full_name u) as [|c full] eqn:Hf; simpl.
  - exists (User.username u). split; [done|]. intros Hu.
    eexists _, u. by repeat split.
  - exists (c :: full). split; [done|discriminate].
Qed.

Lemma get_reviewer_name_total_witness :
  let obj :=
    {| TeamDeskPlanReview.plan := None;
       TeamDeskPlanReview.reviewer :=
         Some {| OrganizationUser.user :=
                   Some {| User.username := []; User.get_full_name := [] |} |};
       TeamDeskPlanReview.status := of_string "PENDING";
       TeamDeskPlanReview.feedback := [] |} in
  exists label,
    get_reviewer_name obj = Ok label
    /\ (label = [] ->
        exists r u, TeamDeskPlanReview.reviewer obj = Some r
                    /\ OrganizationUser.user r = Some u
                    /\ User.get_full_name u = [] /\ User.username u = []).
Proof. intros obj. exact (get_reviewer_name_total obj). Defined.

(** ** [LocationAdmin.formfield_for_choice_field] *)

Import LocationAdmin.

(** For the field named [region] the choices handed on are
    [Location.REGIONS], whatever the caller passed for them; for any other
    field the keyword arguments are handed on as they are; and no keyword
    other than [choices] is ever changed. *)
Theorem formfield_for_choice_field_kwargs
    (REGIONS : list (str * str)) (db_field_name : str)
    (kwargs : gmap string kwarg) :
  (db_field_name = of_string "region" ->
   formfield_for_choice_field REGIONS db_field_name kwargs !! "choices"%string
   = Some (Choices REGIONS))
  /\ (db_field_name <> of_string "region" ->
      formfield_for_choice_field REGIONS db_field_name kwargs = kwargs)
  /\ (forall key, key <> "choices"%string ->
        formfield_for_choice_field REGIONS db_field_name kwargs !! key
        = kwargs !! key).
Proof.
  unfold formfield_for_choice_field.
  case_decide as Hname; split; [| split | | split]; try done.
  - intros _. apply lookup_insert_eq.
  - intros key Hkey. by rewrite lookup_insert_ne.
Qed.

Lemma formfield_for_choice_field_kwargs_witness :
  let REGIONS := [(of_string "AA", of_string "Addis Ababa")] in
  let kwargs : gmap string kwarg :=
    {[ "choices"%string := Choices []; "required"%string := Other (VBool true) ]} in
  formfield_for_choice_field REGIONS (of_string "region") kwargs !! "choices"%string
  = Some (Choices REGIONS)
  /\ formfield_for_choice_field REGIONS (of_string "name") kwargs = kwargs
  /\ formfield_for_choice_field REGIONS (of_string "region") kwargs !! "required"%string
     = kwargs !! "required"%string.
Proof.
  intros REGIONS kwargs. split; [|split].
  - apply (proj1 (formfield_for_choice_field_kwargs REGIONS (of_string "region") kwargs)).
    reflexivity.
  - apply (proj1 (proj2 (formfield_for_choice_field_kwargs REGIONS (of_string "name") kwargs))).
    discriminate.
  - apply (proj2 (proj2 (formfield_for_choice_field_kwargs REGIONS (of_string "region") kwargs))).
    discriminate.
Defined.
